(** * gamelift-shell: the infrastructure stack of [lib/gls-infrastructure-stack.js]

    A shallow embedding of the stack's declaration code: the stream-group
    identifier validator (a regular-expression test), the constructor of
    [GLSInfrastructureStack] (a sequence of declarations recorded in the
    stack), the instruction text, and the top-level program that reads
    [process.env], validates and instantiates the stack. *)

From Stdlib Require Import NArith Ascii String.
From stdpp Require Import base numbers list strings gmap.

Local Open Scope N_scope.
Local Open Scope list_scope.

(** ** JavaScript strings

    A JavaScript string is a sequence of UTF-16 code units.  Source literals
    are ASCII throughout the file; [lit] embeds them. *)

Abbreviation jsstring := (list N).

Definition lit (s : string) : jsstring :=
  (fun a => N_of_ascii a) <$> list_ascii_of_string s.

(** [nl] is the line terminator of the source file inside a template
    literal. *)
Definition nl : jsstring := [10].

(** [spaces n] stands for a run of [n] U+0020 in a template literal. *)
Definition spaces (n : nat) : jsstring := replicate n 32.

(** ECMAScript [WhiteSpace] and [LineTerminator] code units, the characters
    removed by [String.prototype.trim]. *)
Definition isWhiteSpace (c : N) : bool :=
  (c =? 9) || (c =? 10) || (c =? 11) || (c =? 12) || (c =? 13) || (c =? 32)
  || (c =? 160) || (c =? 5760) || ((8192 <=? c) && (c <=? 8202))
  || (c =? 8232) || (c =? 8233) || (c =? 8239) || (c =? 8287)
  || (c =? 12288) || (c =? 65279).

Fixpoint trimStart (s : jsstring) : jsstring :=
  match s with
  | c :: s' => if isWhiteSpace c then trimStart s' else s
  | [] => []
  end.

Definition trimEnd (s : jsstring) : jsstring := rev (trimStart (rev s)).

Definition trim (s : jsstring) : jsstring := trimEnd (trimStart s).

(** [String.prototype.includes]: [p] occurs in [s] as a contiguous run. *)
Definition includes (s p : jsstring) : Prop :=
  exists before after, s = before ++ p ++ after.

(** ** Regular expressions

    The fragment of the regular-expression syntax that the validator's
    literal uses, matched by derivatives. *)

Inductive regex : Type :=
| Void
| Eps
| Chr (c : N)
| Class (ranges : list (N * N))
| Seq (r1 r2 : regex)
| Alt (r1 r2 : regex)
| Star (r : regex).

Definition in_class (c : N) (ranges : list (N * N)) : bool :=
  existsb (fun '(lo, hi) => (lo <=? c) && (c <=? hi)) ranges.

Fixpoint nullable (r : regex) : bool :=
  match r with
  | Void => false
  | Eps => true
  | Chr _ => false
  | Class _ => false
  | Seq r1 r2 => nullable r1 && nullable r2
  | Alt r1 r2 => nullable r1 || nullable r2
  | Star _ => true
  end.

Fixpoint deriv (c : N) (r : regex) : regex :=
  match r with
  | Void => Void
  | Eps => Void
  | Chr a => if c =? a then Eps else Void
  | Class ranges => if in_class c ranges then Eps else Void
  | Seq r1 r2 =>
      if nullable r1
      then Alt (Seq (deriv c r1) r2) (deriv c r2)
      else Seq (deriv c r1) r2
  | Alt r1 r2 => Alt (deriv c r1) (deriv c r2)
  | Star r1 => Seq (deriv c r1) (Star r1)
  end.

Fixpoint matches (r : regex) (s : jsstring) : bool :=
  match s with
  | [] => nullable r
  | c :: s' => matches (deriv c r) s'
  end.

(** The quantifier [{n,}]: [n] copies of [r], then any number more. *)
Definition at_least (n : nat) (r : regex) : regex :=
  Nat.iter n (Seq r) (Star r).

(** A literal run of characters. *)
Definition chars (s : jsstring) : regex :=
  foldr (fun c r => Seq (Chr c) r) Eps s.

(** A regular-expression literal without flags: [^] pins the start of the
    match to index 0 and [$] pins its end to the end of the input (there is
    no [m] flag, so [$] does not match before a line terminator). *)
Record RegExp : Type := mkRegExp {
  anchor_start : bool;
  body : regex;
  anchor_end : bool
}.

(** [search re s] holds when [s.match(re)] is not [null]: some substring of
    [s] that respects the anchors is matched by the body. *)
Definition search (re : RegExp) (s : jsstring) : bool :=
  let starts := if anchor_start re then [0%nat] else seq 0 (S (length s)) in
  existsb
    (fun i =>
       let rest := drop i s in
       let lens :=
         if anchor_end re then [length rest] else seq 0 (S (length rest)) in
       existsb (fun n => matches (body re) (take n rest)) lens)
    starts.

(** The denotation of a regular expression, against which the matcher is
    checked. *)
Inductive lang : regex -> jsstring -> Prop :=
| lang_eps : lang Eps []
| lang_chr c : lang (Chr c) [c]
| lang_class ranges c : in_class c ranges = true -> lang (Class ranges) [c]
| lang_seq r1 r2 s1 s2 :
    lang r1 s1 -> lang r2 s2 -> lang (Seq r1 r2) (s1 ++ s2)
| lang_alt_l r1 r2 s : lang r1 s -> lang (Alt r1 r2) s
| lang_alt_r r1 r2 s : lang r2 s -> lang (Alt r1 r2) s
| lang_star_nil r : lang (Star r) []
| lang_star_app r s1 s2 :
    lang r s1 -> lang (Star r) s2 -> lang (Star r) (s1 ++ s2).

(** ** Completions

    A call either returns a value or throws. *)

Inductive JsError : Type :=
| Error (message : jsstring).

Inductive completion (A : Type) : Type :=
| Return (a : A)
| Throw (e : JsError).

Arguments Return {A} a.
Arguments Throw {A} e.

(** ** The identifier validator *)

(** [/^sg-[a-zA-Z0-9]{9,}$/] *)
Definition streamGroupIdPattern : RegExp :=
  {| anchor_start := true;
     body :=
       Seq (chars (lit "sg-"))
           (at_least 9 (Class [(97, 122); (65, 90); (48, 57)]));
     anchor_end := true |}.

Definition validateStreamGroupId (id : jsstring) : completion jsstring :=
  if negb (search streamGroupIdPattern id)
  then Throw (Error (lit "Invalid Stream Group ID format. Must match pattern: At least 9 alphanumeric characters after sg-"))
  else Return id.

(** The pattern in the words of the specification: the prefix [sg-], then
    nine or more characters that are ASCII letters or digits. *)
Definition alphanumeric (c : N) : bool :=
  ((65 <=? c) && (c <=? 90)) || ((97 <=? c) && (c <=? 122))
  || ((48 <=? c) && (c <=? 57)).

Definition spec_stream_group_id (s : jsstring) : Prop :=
  exists suffix,
    s = lit "sg-" ++ suffix /\
    (9 <= length suffix)%nat /\
    Forall (fun c => alphanumeric c = true) suffix.

(** ** Library values

    The stack is written against aws-cdk-lib.  Its enumerations are
    inductive types here, one constructor per member that the stack names;
    its constructs are records of the properties that the stack passes. *)

Module cdk.
Module Duration.
Inductive t : Type :=
| seconds (amount : N)
| days (amount : N).

Definition toSeconds (d : t) : N :=
  match d with
  | seconds n => n
  | days n => n * 86400
  end.
End Duration.
End cdk.

Module aws_logs.
Module RetentionDays.
Inductive t : Type := ONE_MONTH.
End RetentionDays.
End aws_logs.

Module lambda.
Module Runtime.
Inductive t : Type := NODEJS_18_X.
End Runtime.
Module Architecture.
Inductive t : Type := ARM_64.
End Architecture.
Module Tracing.
Inductive t : Type := ACTIVE.
End Tracing.
Module Code.
Inductive t : Type := fromAsset (path : jsstring).
End Code.

Record FunctionProps : Type := {
  runtime : Runtime.t;
  code : Code.t;
  handler : jsstring;
  memorySize : N;
  timeout : cdk.Duration.t;
  environment : list (string * jsstring);
  architecture : Architecture.t;
  tracing : Tracing.t;
  logRetention : aws_logs.RetentionDays.t
}.
End lambda.

Module iam.
Module Effect.
Inductive t : Type := ALLOW.
End Effect.

Record PolicyStatement : Type := {
  effect : Effect.t;
  actions : list jsstring;
  resources : list jsstring
}.
End iam.

Module apigateway.
Module MethodLoggingLevel.
Inductive t : Type := INFO.
End MethodLoggingLevel.

Record CorsOptions : Type := {
  allowOrigins : list jsstring;
  allowMethods : list jsstring;
  allowHeaders : list jsstring;
  maxAge : cdk.Duration.t
}.

Record StageOptions : Type := {
  loggingLevel : MethodLoggingLevel.t;
  dataTraceEnabled : bool;
  tracingEnabled : bool
}.

Record RestApiProps : Type := {
  restApiName : jsstring;
  description : jsstring;
  defaultCorsPreflightOptions : CorsOptions;
  deployOptions : StageOptions
}.

(** A resource of the API: the root, a named child, or the greedy
    resource that [addProxy] puts under a parent. *)
Inductive Resource : Type :=
| root
| child (parent : Resource) (pathPart : jsstring)
| proxy (parent : Resource).

(** [new LambdaIntegration(fn, { proxy, timeout })]; the function is named
    by its construct id. *)
Record LambdaIntegration : Type := {
  handler : jsstring;
  proxy_ : bool;
  timeout : cdk.Duration.t
}.

Record MethodResponse : Type := {
  statusCode : jsstring;
  responseParameters : option (list (jsstring * bool))
}.

Record MethodOptions : Type := {
  methodResponses : list MethodResponse
}.

(** One declared method: a resource, a verb, the integration behind it and
    the options given at the declaration ([None] when the declaration
    gives none). *)
Record Method : Type := {
  resource : Resource;
  httpMethod : jsstring;
  integration : LambdaIntegration;
  options : option MethodOptions
}.

Record ProxyResourceOptions : Type := {
  defaultIntegration : LambdaIntegration;
  anyMethod : bool
}.

(** The handle that [new RestApi] returns. *)
Record RestApi : Type := {
  root_ : Resource;
  url : jsstring
}.
End apigateway.

Record CfnOutputProps : Type := {
  value : jsstring;
  output_description : jsstring
}.

(** The environment that a stack is bound to: the account and the region,
    each given or left open. *)
Record StackEnv : Type := {
  account : option jsstring;
  region : option jsstring
}.

(** The calls that the constructor makes into aws-cdk-lib, with what it
    passes. *)
Inductive LibraryCall : Type :=
| call_new_Function (id : jsstring) (props : lambda.FunctionProps)
| call_addToRolePolicy (fn : jsstring) (statement : iam.PolicyStatement)
| call_new_RestApi (id : jsstring) (props : apigateway.RestApiProps)
| call_addResource (parent : apigateway.Resource) (pathPart : jsstring)
| call_addMethod (resource : apigateway.Resource) (httpMethod : jsstring)
    (integration : apigateway.LambdaIntegration)
    (options : option apigateway.MethodOptions)
| call_addProxy (parent : apigateway.Resource)
    (opts : apigateway.ProxyResourceOptions)
| call_new_CfnOutput (id : jsstring) (props : CfnOutputProps).

(** Values that reach the stack from outside the file: two constants of
    aws-cdk-lib's [Cors], Node's [__dirname] and [path.join], the URL that
    the gateway construct reports, and the library's own checks.  A library
    call made in a stack bound to an environment either returns or throws;
    [library_throws] tells which, and with what error. *)
Class Host : Type := {
  Cors_ALL_ORIGINS : list jsstring;
  Cors_ALL_METHODS : list jsstring;
  __dirname : jsstring;
  path_join : jsstring -> jsstring -> jsstring;
  api_url : jsstring;
  library_throws : StackEnv -> LibraryCall -> option JsError
}.

(** ** The stack as a record of its declarations *)

Record Stack : Type := {
  functions : list (jsstring * lambda.FunctionProps);
  rolePolicy : list (jsstring * iam.PolicyStatement);
  restApis : list (jsstring * apigateway.RestApiProps);
  apiResources : list apigateway.Resource;
  methods : list apigateway.Method;
  outputs : list (jsstring * CfnOutputProps)
}.

Definition emptyStack : Stack :=
  {| functions := []; rolePolicy := []; restApis := []; apiResources := [];
     methods := []; outputs := [] |}.

(** The constructor runs its declarations in order, each one adding to the
    stack under construction, until one of them throws.  A computation is
    given the checks of the library for the stack's environment and the
    stack so far; it returns or throws, and leaves the stack as it is then. *)
Definition M (A : Type) : Type :=
  (LibraryCall -> option JsError) -> Stack -> completion A * Stack.

Definition ret {A : Type} (a : A) : M A := fun _ st => (Return a, st).

Definition bind {A B : Type} (m : M A) (k : A -> M B) : M B :=
  fun throws st =>
    match m throws st with
    | (Return a, st') => k a throws st'
    | (Throw e, st') => (Throw e, st')
    end.

Notation "'let*' x ':=' m 'in' k" := (bind m (fun x => k))
  (at level 10, x name, m at level 100, k at level 200).

(** A library call: when the library throws, the stack is left as it was;
    otherwise the declaration is recorded and the call returns. *)
Definition library {A : Type} (call : LibraryCall) (result : A)
    (declare : Stack -> Stack) : M A :=
  fun throws st =>
    match throws call with
    | Some e => (Throw e, st)
    | None => (Return result, declare st)
    end.

(** The stack that a computation leaves when every library call returns. *)
Definition exec {A : Type} (m : M A) : Stack :=
  snd (m (fun _ => None) emptyStack).

Section Constructs.

Context `{Host}.

(** [new lambda.Function(this, id, props)] *)
Definition new_Function (id : jsstring) (props : lambda.FunctionProps)
  : M jsstring :=
  library (call_new_Function id props) id
    (fun st =>
       {| functions := functions st ++ [(id, props)];
          rolePolicy := rolePolicy st;
          restApis := restApis st;
          apiResources := apiResources st;
          methods := methods st;
          outputs := outputs st |}).

(** [fn.addToRolePolicy(statement)] *)
Definition addToRolePolicy (fn : jsstring) (statement : iam.PolicyStatement)
  : M unit :=
  library (call_addToRolePolicy fn statement) tt
    (fun st =>
       {| functions := functions st;
          rolePolicy := rolePolicy st ++ [(fn, statement)];
          restApis := restApis st;
          apiResources := apiResources st;
          methods := methods st;
          outputs := outputs st |}).

(** [new apigateway.RestApi(this, id, props)]: the API comes with its root
    resource. *)
Definition new_RestApi (id : jsstring) (props : apigateway.RestApiProps)
  : M apigateway.RestApi :=
  library (call_new_RestApi id props)
    {| apigateway.root_ := apigateway.root; apigateway.url := api_url |}
    (fun st =>
       {| functions := functions st;
          rolePolicy := rolePolicy st;
          restApis := restApis st ++ [(id, props)];
          apiResources := apiResources st ++ [apigateway.root];
          methods := methods st;
          outputs := outputs st |}).

(** [parent.addResource(pathPart)] *)
Definition addResource (parent : apigateway.Resource) (pathPart : jsstring)
  : M apigateway.Resource :=
  library (call_addResource parent pathPart)
    (apigateway.child parent pathPart)
    (fun st =>
       {| functions := functions st;
          rolePolicy := rolePolicy st;
          restApis := restApis st;
          apiResources := apiResources st ++ [apigateway.child parent pathPart];
          methods := methods st;
          outputs := outputs st |}).

(** [resource.addMethod(httpMethod, integration, options)] *)
Definition Resource_addMethod (resource : apigateway.Resource)
    (httpMethod : jsstring) (integration : apigateway.LambdaIntegration)
    (options : option apigateway.MethodOptions) : M unit :=
  library (call_addMethod resource httpMethod integration options) tt
    (fun st =>
       {| functions := functions st;
          rolePolicy := rolePolicy st;
          restApis := restApis st;
          apiResources := apiResources st;
          methods :=
            methods st ++
            [{| apigateway.resource := resource;
                apigateway.httpMethod := httpMethod;
                apigateway.integration := integration;
                apigateway.options := options |}];
          outputs := outputs st |}).

(** [parent.addProxy(options)]: a greedy resource under [parent] and, with
    [anyMethod], the verb [ANY] on it, behind the default integration and
    with no method options. *)
Definition addProxy (parent : apigateway.Resource)
    (opts : apigateway.ProxyResourceOptions) : M apigateway.Resource :=
  library (call_addProxy parent opts) (apigateway.proxy parent)
    (fun st =>
       {| functions := functions st;
          rolePolicy := rolePolicy st;
          restApis := restApis st;
          apiResources := apiResources st ++ [apigateway.proxy parent];
          methods :=
            methods st ++
            (if apigateway.anyMethod opts
             then [{| apigateway.resource := apigateway.proxy parent;
                      apigateway.httpMethod := lit "ANY";
                      apigateway.integration :=
                        apigateway.defaultIntegration opts;
                      apigateway.options := None |}]
             else []);
          outputs := outputs st |}).

(** [new cdk.CfnOutput(this, id, props)] *)
Definition new_CfnOutput (id : jsstring) (props : CfnOutputProps) : M unit :=
  library (call_new_CfnOutput id props) tt
    (fun st =>
       {| functions := functions st;
          rolePolicy := rolePolicy st;
          restApis := restApis st;
          apiResources := apiResources st;
          methods := methods st;
          outputs := outputs st ++ [(id, props)] |}).

End Constructs.

(** ** The instruction text *)

Definition generateInstructions (apiUrl streamGroupId applicationId : jsstring)
  : jsstring :=
  trim
    (nl ++
     spaces 32 ++ lit "Instructions" ++ spaces 35 ++ nl ++
     nl ++
     nl ++
     lit "  Here is your Amazon GameLift Streams Share URL:" ++ spaces 164 ++ nl ++
     lit "  " ++ apiUrl ++ lit "?userId=Player1&applicationId=" ++
       applicationId ++ lit "&location=us-east-2" ++ nl ++
     lit "  " ++ nl ++
     lit "  Add or update arguments to your URL to share your stream:" ++
       spaces 29 ++ nl ++
     lit "  ?userId={Add Player Name}&applicationId={Add Application ID}&location={Add AWS Region} " ++ nl ++
     nl ++
     lit "    ").

(** The text before and after the share URL's variable parts, once the
    template is trimmed. *)
Definition instructionsHead : jsstring :=
  lit "Instructions" ++ spaces 35 ++ nl ++
  nl ++
  nl ++
  lit "  Here is your Amazon GameLift Streams Share URL:" ++ spaces 164 ++ nl ++
  lit "  ".

Definition instructionsTail : jsstring :=
  lit "&location=us-east-2" ++ nl ++
  lit "  " ++ nl ++
  lit "  Add or update arguments to your URL to share your stream:" ++
    spaces 29 ++ nl ++
  lit "  ?userId={Add Player Name}&applicationId={Add Application ID}&location={Add AWS Region}".

(** ** The stack *)

Record GLSInfrastructureStackProps : Type := {
  streamGroupId : jsstring;
  applicationId : jsstring;
  env : StackEnv
}.

Section GLSInfrastructureStack.

Context `{Host}.

(** The response contract that the [addMethod] helper of the constructor
    attaches. *)
Definition methodOptions : apigateway.MethodOptions :=
  {| apigateway.methodResponses :=
       [ {| apigateway.statusCode := lit "200";
            apigateway.responseParameters :=
              Some
                [ (lit "method.response.header.Content-Type", true);
                  (lit "method.response.header.Access-Control-Allow-Origin", true);
                  (lit "method.response.header.Access-Control-Allow-Headers", true);
                  (lit "method.response.header.Access-Control-Allow-Methods", true) ] |};
         {| apigateway.statusCode := lit "400";
            apigateway.responseParameters := None |};
         {| apigateway.statusCode := lit "500";
            apigateway.responseParameters := None |} ] |}.

Definition constructor (props : GLSInfrastructureStackProps) : M unit :=
  let* serverLambda :=
    new_Function (lit "GameLiftStreamsServerLambda")
      {| lambda.runtime := lambda.Runtime.NODEJS_18_X;
         lambda.code :=
           lambda.Code.fromAsset (path_join __dirname (lit "../server"));
         lambda.handler := lit "server.handler";
         lambda.memorySize := 512;
         lambda.timeout := cdk.Duration.seconds 300;
         lambda.environment :=
           [ ("STREAM_GROUP_ID"%string, streamGroupId props);
             ("APPLICATION_ID"%string, applicationId props);
             ("NODE_OPTIONS"%string, lit "--enable-source-maps") ];
         lambda.architecture := lambda.Architecture.ARM_64;
         lambda.tracing := lambda.Tracing.ACTIVE;
         lambda.logRetention := aws_logs.RetentionDays.ONE_MONTH |} in
  let* _ :=
    addToRolePolicy serverLambda
      {| iam.effect := iam.Effect.ALLOW;
         iam.actions :=
           [ lit "gameliftstreams:StartStreamSession";
             lit "gameliftstreams:GetStreamSession";
             lit "gameliftstreams:TerminateStreamSession" ];
         iam.resources :=
           [ lit "arn:aws:gameliftstreams:*:*:application/*";
             lit "arn:aws:gameliftstreams:*:*:streamgroup/" ++
               streamGroupId props ] |} in
  let* api :=
    new_RestApi (lit "GameLiftStreamsShareUrlApi")
      {| apigateway.restApiName := lit "GameLiftStreams Share Api";
         apigateway.description :=
           lit "API for the GameLiftStreams Share application";
         apigateway.defaultCorsPreflightOptions :=
           {| apigateway.allowOrigins := Cors_ALL_ORIGINS;
              apigateway.allowMethods := Cors_ALL_METHODS;
              apigateway.allowHeaders :=
                [ lit "Content-Type";
                  lit "X-Amz-Date";
                  lit "Authorization";
                  lit "X-Api-Key";
                  lit "X-Amz-Security-Token" ];
              apigateway.maxAge := cdk.Duration.days 1 |};
         apigateway.deployOptions :=
           {| apigateway.loggingLevel := apigateway.MethodLoggingLevel.INFO;
              apigateway.dataTraceEnabled := true;
              apigateway.tracingEnabled := true |} |} in
  let lambdaIntegration :=
    {| apigateway.handler := serverLambda;
       apigateway.proxy_ := true;
       apigateway.timeout := cdk.Duration.seconds 29 |} in
  let addMethod := fun resource httpMethod =>
    Resource_addMethod resource httpMethod lambdaIntegration
      (Some methodOptions) in
  let* _ := addMethod (apigateway.root_ api) (lit "ANY") in
  let* apiResource := addResource (apigateway.root_ api) (lit "api") in
  let* r1 := addResource apiResource (lit "CreateStreamSession") in
  let* _ := addMethod r1 (lit "POST") in
  let* r2 := addResource apiResource (lit "GetSignalResponse") in
  let* _ := addMethod r2 (lit "POST") in
  let* r3 := addResource apiResource (lit "DestroyStreamSession") in
  let* _ := addMethod r3 (lit "POST") in
  let* _ :=
    addProxy (apigateway.root_ api)
      {| apigateway.defaultIntegration := lambdaIntegration;
         apigateway.anyMethod := true |} in
  new_CfnOutput (lit "Instructions")
    {| value :=
         generateInstructions (apigateway.url api) (streamGroupId props)
           (applicationId props);
       output_description :=
         lit "Instructions for using the GameLiftStreams Share URL" |}.

(** The stack that [new GLSInfrastructureStack(scope, id, props)] builds when
    every library call of the constructor returns. *)
Definition GLSInfrastructureStack (props : GLSInfrastructureStackProps)
  : Stack :=
  exec (constructor props).

(** ** The program *)

(** A [cdk.App]: the stacks instantiated in it, each with its id and the
    environment it is bound to. *)
Record App : Type := {
  stacks : list (jsstring * StackEnv * Stack)
}.

Definition new_App : App := {| stacks := [] |}.

(** [new GLSInfrastructureStack(app, id, props)]: [super(scope, id, props)]
    puts the stack in the app, bound to [props.env]; the constructor then
    makes its library calls in that stack.  If one of them throws, the
    expression throws and the stack stays in the app as it was left. *)
Definition new_GLSInfrastructureStack (app : App) (id : jsstring)
    (props : GLSInfrastructureStackProps) : App * completion unit :=
  match constructor props (library_throws (env props)) emptyStack with
  | (c, stack) => ({| stacks := stacks app ++ [(id, env props, stack)] |}, c)
  end.

(** [v || d] on a string that may be undefined: [undefined] and the empty
    string are falsy. *)
Definition or_default (v : option jsstring) (d : jsstring) : jsstring :=
  match v with
  | Some (c :: s) => c :: s
  | Some [] | None => d
  end.

(** The statements at the end of the module, run against [process.env].
    The result is the app as the program leaves it and how the program
    completes. *)
Definition main (process_env : gmap string jsstring)
  : App * completion unit :=
  let app := new_App in
  match
    validateStreamGroupId
      (or_default (process_env !! "STREAM_GROUP_ID"%string)
         (lit "sg-000000000"))
  with
  | Throw e => (app, Throw e)
  | Return streamGroupId_ =>
      new_GLSInfrastructureStack app
        (lit "GameLiftStreamsGLSInfrastructureStack")
        {| streamGroupId := streamGroupId_;
           applicationId :=
             or_default (process_env !! "APPLICATION_ID"%string)
               (lit "a-000000000");
           env :=
             {| account := process_env !! "CDK_DEFAULT_ACCOUNT"%string;
                region := process_env !! "CDK_DEFAULT_REGION"%string |} |}
  end.

(** The parts of an app that the descriptor is made of. *)
Definition computeUnits (app : App) : list (jsstring * lambda.FunctionProps) :=
  concat (map (fun s => functions (snd s)) (stacks app)).

Definition grants (app : App) : list iam.PolicyStatement :=
  concat (map (fun s => map snd (rolePolicy (snd s))) (stacks app)).

Definition routes (app : App) : list apigateway.Method :=
  concat (map (fun s => methods (snd s)) (stacks app)).

End GLSInfrastructureStack.

(** ** Paths and route resolution *)

(** The path of a resource as its segments under the root; for the greedy
    resource, the segments of its parent. *)
Fixpoint segments (r : apigateway.Resource) : list jsstring :=
  match r with
  | apigateway.root => []
  | apigateway.child parent pathPart => segments parent ++ [pathPart]
  | apigateway.proxy parent => segments parent
  end.

Definition is_proxy (r : apigateway.Resource) : bool :=
  match r with
  | apigateway.proxy _ => true
  | _ => false
  end.

(** The path as a request spells it: [/] for the root, otherwise every
    segment behind a slash. *)
Definition pathname (segs : list jsstring) : jsstring :=
  match segs with
  | [] => lit "/"
  | _ => concat (map (fun part => lit "/" ++ part) segs)
  end.

Definition is_named (m : apigateway.Method) : bool :=
  negb (is_proxy (apigateway.resource m)).

(** Modelled from the spec: the gateway that resolves a request to a route
    is a service outside the repository.  A named route is an exact match
    for the request whose path is its own. *)
Definition exact_match (path : list jsstring) (m : apigateway.Method) : bool :=
  is_named m && bool_decide (segments (apigateway.resource m) = path).

(** Modelled from the spec: the gateway that resolves a request to a route
    is a service outside the repository.  The catch-all is a candidate for
    every request, whatever its path and verb. *)
Definition catch_all_match (path : list jsstring) (m : apigateway.Method)
  : bool :=
  is_proxy (apigateway.resource m).

(** Modelled from the spec: the gateway that resolves a request to a route
    is a service outside the repository.  Section 4.3 gives its rule: the
    more specific path match takes precedence, so an exact match is taken
    before the catch-all is considered. *)
Definition resolve (table : list apigateway.Method) (path : list jsstring)
  : option apigateway.Method :=
  match find (exact_match path) table with
  | Some m => Some m
  | None => find (catch_all_match path) table
  end.

(** A method behind the stack's one integration: the function
    [GameLiftStreamsServerLambda] as a proxy, with a timeout of 29 seconds. *)
Definition route (resource : apigateway.Resource) (verb : jsstring)
    (options : option apigateway.MethodOptions) : apigateway.Method :=
  {| apigateway.resource := resource;
     apigateway.httpMethod := verb;
     apigateway.integration :=
       {| apigateway.handler := lit "GameLiftStreamsServerLambda";
          apigateway.proxy_ := true;
          apigateway.timeout := cdk.Duration.seconds 29 |};
     apigateway.options := options |}.

(** The paths of the named routes. *)
Definition namedPaths : list (list jsstring) :=
  [ [];
    [lit "api"; lit "CreateStreamSession"];
    [lit "api"; lit "GetSignalResponse"];
    [lit "api"; lit "DestroyStreamSession"] ].

(** ** A sample host

    The values of aws-cdk-lib's [Cors] constants and a directory and URL to
    evaluate the stack with. *)
Definition sampleHost : Host :=
  {| Cors_ALL_ORIGINS := [lit "*"];
     Cors_ALL_METHODS :=
       [ lit "OPTIONS"; lit "GET"; lit "PUT"; lit "POST"; lit "DELETE";
         lit "PATCH"; lit "HEAD" ];
     __dirname := lit "/srv/gamelift-shell/lib";
     path_join := fun a b => a ++ lit "/" ++ b;
     api_url := lit "https://x.example/prod";
     library_throws := fun _ _ => None |}.

(** A host like the sample one, except that its library does not know the
    region [xx-nowhere-1] and throws when a function is declared in a stack
    bound to it. *)
Definition strictHost : Host :=
  {| Cors_ALL_ORIGINS := Cors_ALL_ORIGINS (Host := sampleHost);
     Cors_ALL_METHODS := Cors_ALL_METHODS (Host := sampleHost);
     __dirname := __dirname (Host := sampleHost);
     path_join := path_join (Host := sampleHost);
     api_url := api_url (Host := sampleHost);
     library_throws := fun env call =>
       match call, region env with
       | call_new_Function _ _, Some r =>
           if bool_decide (r = lit "xx-nowhere-1")
           then Some (Error (lit "region-info: unknown region"))
           else None
       | _, _ => None
       end |}.

Definition sampleProps : GLSInfrastructureStackProps :=
  {| streamGroupId := lit "sg-abc123456";
     applicationId := lit "a-1";
     env := {| account := None; region := None |} |}.

(** ** Resources as a tree *)

#[global] Instance Resource_eq_dec : EqDecision apigateway.Resource.
Proof. solve_decision. Defined.

(** The resource under which a resource was added; the root has none. *)
Definition parentOf (r : apigateway.Resource) : option apigateway.Resource :=
  match r with
  | apigateway.root => None
  | apigateway.child parent _ => Some parent
  | apigateway.proxy parent => Some parent
  end.

(** ** Stacks left unfinished *)

(** [stack] holds, in each of its parts, an initial run of what [full]
    declares. *)
Definition builtFrom (stack full : Stack) : Prop :=
  prefix (functions stack) (functions full) /\
  prefix (rolePolicy stack) (rolePolicy full) /\
  prefix (restApis stack) (restApis full) /\
  prefix (apiResources stack) (apiResources full) /\
  prefix (methods stack) (methods full) /\
  prefix (outputs stack) (outputs full).

(** * Properties *)

Section RegexFacts.

Implicit Types (r : regex) (s : jsstring) (c : N).

Lemma lang_seq_inv r1 r2 s :
  lang (Seq r1 r2) s -> exists s1 s2, s = s1 ++ s2 /\ lang r1 s1 /\ lang r2 s2.
Proof. inversion 1; subst; eauto. Qed.

Lemma lang_alt_inv r1 r2 s : lang (Alt r1 r2) s -> lang r1 s \/ lang r2 s.
Proof. inversion 1; subst; eauto. Qed.

Lemma nullable_lang r : nullable r = true <-> lang r [].
Proof.
  induction r as [| | a | rs | r1 IH1 r2 IH2 | r1 IH1 r2 IH2 | r1 IH1]; simpl.
  - split; [done | inversion 1].
  - split; [constructor | done].
  - split; [done | inversion 1].
  - split; [done | inversion 1].
  - rewrite andb_true_iff, IH1, IH2. split.
    + intros [H1 H2]. by apply (lang_seq _ _ [] []).
    + intros (s1 & s2 & Heq & H1 & H2)%lang_seq_inv.
      symmetry in Heq. apply app_eq_nil in Heq as [-> ->]. done.
  - rewrite orb_true_iff, IH1, IH2. split.
    + intros [H | H]; [by apply lang_alt_l | by apply lang_alt_r].
    + apply lang_alt_inv.
  - split; [constructor | done].
Qed.

Lemma lang_star_cons_inv r c s :
  lang (Star r) (c :: s) ->
  exists s1 s2, s = s1 ++ s2 /\ lang r (c :: s1) /\ lang (Star r) s2.
Proof.
  intros H. remember (Star r) as r' eqn:Hr. remember (c :: s) as w eqn:Hw.
  revert s Hw.
  induction H as [| | | | | | | r0 s1 s2 H1 _ H2 IH2]; try discriminate.
  injection Hr as ->. intros s Hw. destruct s1 as [| c1 s1]; simpl in Hw.
  - by apply IH2.
  - injection Hw as -> <-. by exists s1, s2.
Qed.

Lemma deriv_seq_lang r1 r2 c s :
  (forall s', lang (deriv c r1) s' <-> lang r1 (c :: s')) ->
  lang (Seq (deriv c r1) r2) s ->
  lang (Seq r1 r2) (c :: s).
Proof.
  intros IH (s1 & s2 & -> & H1 & H2)%lang_seq_inv.
  apply IH in H1. by apply (lang_seq _ _ (c :: s1) s2).
Qed.

Lemma deriv_lang r c s : lang (deriv c r) s <-> lang r (c :: s).
Proof.
  revert s.
  induction r as [| | a | rs | r1 IH1 r2 IH2 | r1 IH1 r2 IH2 | r1 IH1];
    intros s; simpl.
  - split; inversion 1.
  - split; inversion 1.
  - destruct (N.eqb_spec c a) as [-> | Hne].
    + split; inversion 1; subst; constructor.
    + split; inversion 1; subst; done.
  - destruct (in_class c rs) eqn:Hin.
    + split; inversion 1; subst; by constructor.
    + split; inversion 1; subst; congruence.
  - split.
    + intros H. destruct (nullable r1) eqn:Hn.
      * apply lang_alt_inv in H as [H | H].
        -- by apply deriv_seq_lang.
        -- apply (lang_seq _ _ [] (c :: s));
             [by apply nullable_lang | by apply IH2].
      * by apply deriv_seq_lang.
    + intros (s1 & s2 & Heq & H1 & H2)%lang_seq_inv.
      destruct s1 as [| c1 s1]; simpl in Heq.
      * subst s2. apply nullable_lang in H1. rewrite H1.
        apply lang_alt_r. by apply IH2.
      * injection Heq as <- ->.
        assert (lang (Seq (deriv c r1) r2) (s1 ++ s2)) as Hseq.
        { apply lang_seq; [by apply IH1 | done]. }
        destruct (nullable r1); [by apply lang_alt_l | done].
  - split.
    + intros [H | H]%lang_alt_inv;
        [apply lang_alt_l, IH1 | apply lang_alt_r, IH2]; done.
    + intros [H | H]%lang_alt_inv;
        [apply lang_alt_l, IH1 | apply lang_alt_r, IH2]; done.
  - split.
    + intros (s1 & s2 & -> & H1 & H2)%lang_seq_inv.
      apply IH1 in H1. by apply (lang_star_app _ (c :: s1) s2).
    + intros (s1 & s2 & -> & H1 & H2)%lang_star_cons_inv.
      apply lang_seq; [by apply IH1 | done].
Qed.

Lemma matches_lang r s : matches r s = true <-> lang r s.
Proof.
  revert r. induction s as [| c s IH]; intros r; simpl.
  - apply nullable_lang.
  - rewrite IH. apply deriv_lang.
Qed.

End RegexFacts.

(** ** The validator accepts exactly the documented pattern *)

Section Validator.

Implicit Types (s t : jsstring) (c : N).

Lemma search_anchored r s :
  search {| anchor_start := true; body := r; anchor_end := true |} s
  = matches r s.
Proof.
  unfold search. simpl. rewrite firstn_all. by rewrite !orb_false_r.
Qed.

Lemma lang_seq_iff r1 r2 s :
  lang (Seq r1 r2) s <->
  exists s1 s2, s = s1 ++ s2 /\ lang r1 s1 /\ lang r2 s2.
Proof.
  split; [apply lang_seq_inv |].
  intros (s1 & s2 & -> & H1 & H2). by apply lang_seq.
Qed.

Lemma lang_class_iff ranges s :
  lang (Class ranges) s <-> exists c, s = [c] /\ in_class c ranges = true.
Proof.
  split; [inversion 1; subst; eauto |].
  intros (c & -> & Hc). by constructor.
Qed.

Lemma lang_chars p s : lang (chars p) s <-> s = p.
Proof.
  revert s. induction p as [| c p IH]; intros s; simpl.
  - split; [by inversion 1 | intros ->; constructor].
  - rewrite lang_seq_iff. split.
    + intros (s1 & s2 & -> & H1 & H2). apply IH in H2 as ->.
      by inversion H1.
    + intros ->. exists [c], p. split_and!; [done | constructor | by apply IH].
Qed.

Lemma lang_star_class ranges s :
  lang (Star (Class ranges)) s <->
  Forall (fun c => in_class c ranges = true) s.
Proof.
  split.
  - intros H. remember (Star (Class ranges)) as r eqn:Hr.
    induction H as [| | | | | | | r0 s1 s2 H1 _ H2 IH2]; try discriminate.
    + constructor.
    + injection Hr as ->. apply lang_class_iff in H1 as (c & -> & Hc).
      constructor; [done | by apply IH2].
  - induction 1 as [| c s Hc _ IH]; [constructor |].
    apply (lang_star_app _ [c] s); [by constructor | done].
Qed.

Lemma lang_at_least_class n ranges s :
  lang (at_least n (Class ranges)) s <->
  (n <= length s)%nat /\ Forall (fun c => in_class c ranges = true) s.
Proof.
  revert s. induction n as [| n IH]; intros s.
  - unfold at_least. simpl. rewrite lang_star_class.
    split; [intros ?; split; [lia | done] | by intros [_ ?]].
  - change (at_least (S n) (Class ranges))
      with (Seq (Class ranges) (at_least n (Class ranges))).
    rewrite lang_seq_iff. split.
    + intros (s1 & s2 & -> & H1 & H2).
      apply lang_class_iff in H1 as (c & -> & Hc).
      apply IH in H2 as [Hlen Hall]. simpl. split; [lia | by constructor].
    + intros [Hlen Hall]. destruct s as [| c s]; simpl in Hlen; [lia |].
      apply Forall_cons in Hall as [Hc Hall].
      exists [c], s. split_and!; [done | by constructor |].
      apply IH. split; [lia | done].
Qed.

Lemma in_class_alphanumeric c :
  in_class c [(97, 122); (65, 90); (48, 57)] = alphanumeric c.
Proof.
  unfold in_class, alphanumeric. simpl.
  destruct (97 <=? c), (c <=? 122), (65 <=? c), (c <=? 90), (48 <=? c),
    (c <=? 57); reflexivity.
Qed.

Lemma search_streamGroupIdPattern s :
  search streamGroupIdPattern s = true <-> spec_stream_group_id s.
Proof.
  unfold streamGroupIdPattern, spec_stream_group_id.
  rewrite search_anchored, matches_lang, lang_seq_iff. split.
  - intros (s1 & s2 & -> & H1 & H2). apply lang_chars in H1 as ->.
    apply lang_at_least_class in H2 as [Hlen Hall].
    exists s2. split_and!; [done | done |].
    eapply Forall_impl; [exact Hall |].
    intros c Hc. simpl in Hc. by rewrite <- in_class_alphanumeric.
  - intros (t & -> & Hlen & Hall). exists (lit "sg-"), t.
    split_and!; [done | by apply lang_chars |].
    apply lang_at_least_class. split; [done |].
    eapply Forall_impl; [exact Hall |].
    intros c Hc. simpl in Hc. by rewrite in_class_alphanumeric.
Qed.

Lemma validateStreamGroupId_Return s r :
  validateStreamGroupId s = Return r <-> r = s /\ spec_stream_group_id s.
Proof.
  rewrite <- search_streamGroupIdPattern. unfold validateStreamGroupId.
  destruct (search streamGroupIdPattern s); simpl.
  - split; [by intros [= ->] | by intros [-> _]].
  - split; [done | by intros [_ ?]].
Qed.

Lemma validateStreamGroupId_Throw s e :
  validateStreamGroupId s = Throw e <->
  e = Error (lit "Invalid Stream Group ID format. Must match pattern: At least 9 alphanumeric characters after sg-")
  /\ ~ spec_stream_group_id s.
Proof.
  rewrite <- search_streamGroupIdPattern. unfold validateStreamGroupId.
  destruct (search streamGroupIdPattern s); simpl.
  - split; [done | intros [_ Hn]; by destruct Hn].
  - split; [by intros [= <-] | by intros [-> _]].
Qed.

End Validator.

(** C1. [validateStreamGroupId s] returns, and returns [s] itself, exactly
    when [s] is [sg-] followed by nine or more ASCII letters or digits; on
    every other string, the empty one included, it throws its format error.
    [sg-] with exactly nine alphanumerics passes and [sg-] with eight
    characters fails. *)
Theorem validateStreamGroupId_accepts_exactly_the_pattern :
  (forall s : jsstring,
     (validateStreamGroupId s = Return s <-> spec_stream_group_id s) /\
     (forall r, validateStreamGroupId s = Return r -> r = s) /\
     (~ spec_stream_group_id s <->
      validateStreamGroupId s =
        Throw (Error (lit "Invalid Stream Group ID format. Must match pattern: At least 9 alphanumeric characters after sg-")))) /\
  (exists e, validateStreamGroupId [] = Throw e) /\
  (forall t : jsstring,
     length t = 9%nat -> Forall (fun c => alphanumeric c = true) t ->
     validateStreamGroupId (lit "sg-" ++ t) = Return (lit "sg-" ++ t)) /\
  (forall t : jsstring,
     length t = 8%nat ->
     exists e, validateStreamGroupId (lit "sg-" ++ t) = Throw e).
Proof.
  split_and!.
  - intros s. split_and!.
    + rewrite validateStreamGroupId_Return. split; [by intros [_ ?] | done].
    + intros r Hr. by apply validateStreamGroupId_Return in Hr as [-> _].
    + rewrite validateStreamGroupId_Throw. split; [done | by intros [_ ?]].
  - eexists. apply validateStreamGroupId_Throw. split; [done |].
    intros (t & Ht & _). discriminate Ht.
  - intros t Hlen Hall. apply validateStreamGroupId_Return. split; [done |].
    exists t. split_and!; [done | lia | done].
  - intros t Hlen. eexists. apply validateStreamGroupId_Throw. split; [done |].
    intros (t' & Ht & Hlen' & _). apply app_inv_head in Ht as <-. lia.
Qed.

Lemma validateStreamGroupId_accepts_exactly_the_pattern_witness :
  validateStreamGroupId (lit "sg-abc123456") = Return (lit "sg-abc123456") /\
  exists e, validateStreamGroupId (lit "sg-abc12345") = Throw e.
Proof.
  destruct validateStreamGroupId_accepts_exactly_the_pattern
    as (_ & _ & Hnine & Height).
  split.
  - apply (Hnine (lit "abc123456")); [reflexivity |].
    repeat (constructor; [reflexivity |]). constructor.
  - apply (Height (lit "abc12345")). reflexivity.
Defined.

(** ** The instruction text *)

Section Trim.

Implicit Types (s x y : jsstring).

Lemma trimStart_ws_app ws s :
  forallb isWhiteSpace ws = true -> trimStart (ws ++ s) = trimStart s.
Proof.
  induction ws as [| c ws IH]; simpl; [done |].
  intros [Hc Hws]%andb_true_iff. rewrite Hc. by apply IH.
Qed.

Lemma trimStart_app_nonempty x y :
  trimStart x <> [] -> trimStart (x ++ y) = trimStart x ++ y.
Proof.
  induction x as [| c x IH]; simpl; [done |].
  destruct (isWhiteSpace c); [apply IH | done].
Qed.

Lemma trimEnd_app x y y' :
  trimEnd y = y' /\ y' <> [] ->
  trimEnd (x ++ y) = x ++ y' /\ x ++ y' <> [].
Proof.
  intros [Hy Hne]. split.
  - unfold trimEnd in *. rewrite rev_app_distr, trimStart_app_nonempty.
    + by rewrite rev_app_distr, rev_involutive, Hy.
    + intros Hnil. rewrite Hnil in Hy. simpl in Hy. congruence.
  - intros [_ ?]%app_eq_nil. done.
Qed.

Lemma generateInstructions_eq (apiUrl g applicationId : jsstring) :
  generateInstructions apiUrl g applicationId
  = instructionsHead ++ apiUrl ++ lit "?userId=Player1&applicationId=" ++
    applicationId ++ instructionsTail.
Proof.
  unfold generateInstructions, trim.
  rewrite (trimStart_ws_app nl) by reflexivity.
  rewrite (trimStart_ws_app (spaces 32)) by reflexivity.
  rewrite (trimStart_app_nonempty (lit "Instructions")) by discriminate.
  change (trimStart (lit "Instructions")) with (lit "Instructions").
  unfold instructionsHead, instructionsTail.
  rewrite <- !app_assoc.
  refine (proj1 _).
  do 19 apply trimEnd_app.
  split; [vm_compute; reflexivity | discriminate].
Qed.

End Trim.

(** C6. The formatter takes any three strings and returns a string; the
    result contains the base URL followed by
    [?userId=Player1&applicationId=], the application id and
    [&location=us-east-2].  For the sample address this is the URL
    [https://x.example/prod?userId=Player1&applicationId=a-1&location=us-east-2]. *)
Theorem generateInstructions_contains_share_url :
  (forall baseUrl g applicationId : jsstring,
     includes (generateInstructions baseUrl g applicationId)
       (baseUrl ++ lit "?userId=Player1&applicationId=" ++ applicationId ++
        lit "&location=us-east-2")) /\
  includes
    (generateInstructions (lit "https://x.example/prod") (lit "sg-abc123456")
       (lit "a-1"))
    (lit "https://x.example/prod?userId=Player1&applicationId=a-1&location=us-east-2").
Proof.
  assert (forall baseUrl g applicationId : jsstring,
     includes (generateInstructions baseUrl g applicationId)
       (baseUrl ++ lit "?userId=Player1&applicationId=" ++ applicationId ++
        lit "&location=us-east-2")) as Hall.
  { intros baseUrl g applicationId.
    exists instructionsHead, (drop 19 instructionsTail).
    rewrite generateInstructions_eq.
    rewrite <- (take_drop 19 instructionsTail) at 1.
    change (take 19 instructionsTail) with (lit "&location=us-east-2").
    by rewrite <- !app_assoc. }
  split; [exact Hall |].
  exact (Hall (lit "https://x.example/prod") (lit "sg-abc123456") (lit "a-1")).
Qed.

(** C10. The instruction text does not depend on the stream-group
    identifier that the formatter is given. *)
Theorem generateInstructions_ignores_streamGroupId :
  forall baseUrl applicationId g1 g2 : jsstring,
    generateInstructions baseUrl g1 applicationId
    = generateInstructions baseUrl g2 applicationId.
Proof. intros baseUrl applicationId g1 g2. reflexivity. Qed.

(** ** The declarations of the stack *)

Section StackFacts.

Context `{Host}.

Implicit Types (props : GLSInfrastructureStackProps).

Lemma stack_rolePolicy props :
  rolePolicy (GLSInfrastructureStack props)
  = [ (lit "GameLiftStreamsServerLambda",
       {| iam.effect := iam.Effect.ALLOW;
          iam.actions :=
            [ lit "gameliftstreams:StartStreamSession";
              lit "gameliftstreams:GetStreamSession";
              lit "gameliftstreams:TerminateStreamSession" ];
          iam.resources :=
            [ lit "arn:aws:gameliftstreams:*:*:application/*";
              lit "arn:aws:gameliftstreams:*:*:streamgroup/" ++
                streamGroupId props ] |}) ].
Proof. reflexivity. Qed.

Lemma stack_methods props :
  map (fun m => (apigateway.resource m, apigateway.httpMethod m,
                 apigateway.options m))
    (methods (GLSInfrastructureStack props))
  = [ (apigateway.root, lit "ANY", Some methodOptions);
      (apigateway.child (apigateway.child apigateway.root (lit "api"))
         (lit "CreateStreamSession"), lit "POST", Some methodOptions);
      (apigateway.child (apigateway.child apigateway.root (lit "api"))
         (lit "GetSignalResponse"), lit "POST", Some methodOptions);
      (apigateway.child (apigateway.child apigateway.root (lit "api"))
         (lit "DestroyStreamSession"), lit "POST", Some methodOptions);
      (apigateway.proxy apigateway.root, lit "ANY", None) ].
Proof. reflexivity. Qed.

Lemma stack_methods_eq props :
  methods (GLSInfrastructureStack props)
  = [ route apigateway.root (lit "ANY") (Some methodOptions);
      route
        (apigateway.child (apigateway.child apigateway.root (lit "api"))
           (lit "CreateStreamSession"))
        (lit "POST") (Some methodOptions);
      route
        (apigateway.child (apigateway.child apigateway.root (lit "api"))
           (lit "GetSignalResponse"))
        (lit "POST") (Some methodOptions);
      route
        (apigateway.child (apigateway.child apigateway.root (lit "api"))
           (lit "DestroyStreamSession"))
        (lit "POST") (Some methodOptions);
      route (apigateway.proxy apigateway.root) (lit "ANY") None ].
Proof. reflexivity. Qed.

Lemma find_unique {A : Type} (p : A -> bool) (l : list A) (x : A) :
  In x l -> p x = true ->
  (forall y, In y l -> p y = true -> y = x) ->
  find p l = Some x.
Proof.
  induction l as [| a l IH]; simpl; [done |].
  intros Hin Hx Huniq. destruct (p a) eqn:Ha.
  - f_equal. apply Huniq; [by left | done].
  - apply IH; [| done | intros y Hy; apply Huniq; by right].
    destruct Hin as [-> | Hin]; [congruence | done].
Qed.

(** Each named path is the path of exactly one declared route. *)
Lemma named_path_has_one_route props path :
  In path namedPaths ->
  exists m,
    In m (methods (GLSInfrastructureStack props)) /\
    exact_match path m = true /\
    forall m', In m' (methods (GLSInfrastructureStack props)) ->
               exact_match path m' = true -> m' = m.
Proof.
  rewrite stack_methods_eq. unfold namedPaths. simpl.
  intros [<- | [<- | [<- | [<- | []]]]].
  - exists (route apigateway.root (lit "ANY") (Some methodOptions)).
    split_and!; [tauto | reflexivity |].
    intros m' [<- | [<- | [<- | [<- | [<- | []]]]]] Hm;
      first [reflexivity | vm_compute in Hm; discriminate Hm].
  - exists (route
              (apigateway.child (apigateway.child apigateway.root (lit "api"))
                 (lit "CreateStreamSession"))
              (lit "POST") (Some methodOptions)).
    split_and!; [tauto | reflexivity |].
    intros m' [<- | [<- | [<- | [<- | [<- | []]]]]] Hm;
      first [reflexivity | vm_compute in Hm; discriminate Hm].
  - exists (route
              (apigateway.child (apigateway.child apigateway.root (lit "api"))
                 (lit "GetSignalResponse"))
              (lit "POST") (Some methodOptions)).
    split_and!; [tauto | reflexivity |].
    intros m' [<- | [<- | [<- | [<- | [<- | []]]]]] Hm;
      first [reflexivity | vm_compute in Hm; discriminate Hm].
  - exists (route
              (apigateway.child (apigateway.child apigateway.root (lit "api"))
                 (lit "DestroyStreamSession"))
              (lit "POST") (Some methodOptions)).
    split_and!; [tauto | reflexivity |].
    intros m' [<- | [<- | [<- | [<- | [<- | []]]]]] Hm;
      first [reflexivity | vm_compute in Hm; discriminate Hm].
Qed.

End StackFacts.

(** C2. For a validated stream-group identifier, the stack gives the
    function's role exactly one policy statement; its actions are the three
    streaming operations and its resources are the wildcard application
    pattern and the stream-group pattern
    [arn:aws:gameliftstreams:*:*:streamgroup/] followed by the identifier,
    which therefore contains the identifier. *)
Theorem grant_is_scoped_to_the_stream_group
    `{Host} (props : GLSInfrastructureStackProps) :
  validateStreamGroupId (streamGroupId props) = Return (streamGroupId props) ->
  map snd (rolePolicy (GLSInfrastructureStack props))
  = [ {| iam.effect := iam.Effect.ALLOW;
         iam.actions :=
           [ lit "gameliftstreams:StartStreamSession";
             lit "gameliftstreams:GetStreamSession";
             lit "gameliftstreams:TerminateStreamSession" ];
         iam.resources :=
           [ lit "arn:aws:gameliftstreams:*:*:application/*";
             lit "arn:aws:gameliftstreams:*:*:streamgroup/" ++
               streamGroupId props ] |} ] /\
  includes
    (lit "arn:aws:gameliftstreams:*:*:streamgroup/" ++ streamGroupId props)
    (streamGroupId props).
Proof.
  intros _. split.
  - by rewrite stack_rolePolicy.
  - exists (lit "arn:aws:gameliftstreams:*:*:streamgroup/"), [].
    by rewrite app_nil_r.
Qed.

Lemma grant_is_scoped_to_the_stream_group_witness :
  validateStreamGroupId (lit "sg-abc123456") = Return (lit "sg-abc123456") /\
  map snd (rolePolicy (@GLSInfrastructureStack sampleHost sampleProps))
  = [ {| iam.effect := iam.Effect.ALLOW;
         iam.actions :=
           [ lit "gameliftstreams:StartStreamSession";
             lit "gameliftstreams:GetStreamSession";
             lit "gameliftstreams:TerminateStreamSession" ];
         iam.resources :=
           [ lit "arn:aws:gameliftstreams:*:*:application/*";
             lit "arn:aws:gameliftstreams:*:*:streamgroup/sg-abc123456" ] |} ] /\
  includes (lit "arn:aws:gameliftstreams:*:*:streamgroup/sg-abc123456")
    (lit "sg-abc123456").
Proof.
  assert (validateStreamGroupId (lit "sg-abc123456")
          = Return (lit "sg-abc123456")) as Hok by (vm_compute; reflexivity).
  split; [exact Hok |].
  exact (@grant_is_scoped_to_the_stream_group sampleHost sampleProps Hok).
Defined.

(** C3. The stack declares exactly five routes, in this order: [ANY] on the
    root, [POST] on [/api/CreateStreamSession], [/api/GetSignalResponse] and
    [/api/DestroyStreamSession], and [ANY] on the greedy resource under the
    root. *)
Theorem stack_declares_five_routes
    `{Host} (props : GLSInfrastructureStackProps) :
  map (fun m => (apigateway.resource m, apigateway.httpMethod m))
    (methods (GLSInfrastructureStack props))
  = [ (apigateway.root, lit "ANY");
      (apigateway.child (apigateway.child apigateway.root (lit "api"))
         (lit "CreateStreamSession"), lit "POST");
      (apigateway.child (apigateway.child apigateway.root (lit "api"))
         (lit "GetSignalResponse"), lit "POST");
      (apigateway.child (apigateway.child apigateway.root (lit "api"))
         (lit "DestroyStreamSession"), lit "POST");
      (apigateway.proxy apigateway.root, lit "ANY") ] /\
  map (fun m => pathname (segments (apigateway.resource m)))
    (filter is_named (methods (GLSInfrastructureStack props)))
  = [ lit "/";
      lit "/api/CreateStreamSession";
      lit "/api/GetSignalResponse";
      lit "/api/DestroyStreamSession" ] /\
  length (methods (GLSInfrastructureStack props)) = 5%nat.
Proof. split_and!; reflexivity. Qed.

(** C7. Every route of the stack other than the catch-all carries the same
    response contract: a [200] response with the four header flags
    [Content-Type], [Access-Control-Allow-Origin],
    [Access-Control-Allow-Headers] and [Access-Control-Allow-Methods], all
    set, then a [400] and a [500] response without headers. *)
Theorem named_routes_share_the_response_contract
    `{Host} (props : GLSInfrastructureStackProps) (m : apigateway.Method) :
  In m (methods (GLSInfrastructureStack props)) ->
  is_proxy (apigateway.resource m) = false ->
  apigateway.options m
  = Some
      {| apigateway.methodResponses :=
           [ {| apigateway.statusCode := lit "200";
                apigateway.responseParameters :=
                  Some
                    [ (lit "method.response.header.Content-Type", true);
                      (lit "method.response.header.Access-Control-Allow-Origin", true);
                      (lit "method.response.header.Access-Control-Allow-Headers", true);
                      (lit "method.response.header.Access-Control-Allow-Methods", true) ] |};
             {| apigateway.statusCode := lit "400";
                apigateway.responseParameters := None |};
             {| apigateway.statusCode := lit "500";
                apigateway.responseParameters := None |} ] |}.
Proof.
  rewrite stack_methods_eq.
  intros [<- | [<- | [<- | [<- | [<- | []]]]]] Hnamed;
    first [reflexivity | discriminate Hnamed].
Qed.

Lemma named_routes_share_the_response_contract_witness :
  In (nth 2 (methods (@GLSInfrastructureStack sampleHost sampleProps))
        {| apigateway.resource := apigateway.root;
           apigateway.httpMethod := [];
           apigateway.integration :=
             {| apigateway.handler := [];
                apigateway.proxy_ := false;
                apigateway.timeout := cdk.Duration.seconds 0 |};
           apigateway.options := None |})
    (methods (@GLSInfrastructureStack sampleHost sampleProps)) /\
  apigateway.resource
    (nth 2 (methods (@GLSInfrastructureStack sampleHost sampleProps))
       {| apigateway.resource := apigateway.root;
          apigateway.httpMethod := [];
          apigateway.integration :=
            {| apigateway.handler := [];
               apigateway.proxy_ := false;
               apigateway.timeout := cdk.Duration.seconds 0 |};
          apigateway.options := None |})
  = apigateway.child (apigateway.child apigateway.root (lit "api"))
      (lit "GetSignalResponse") /\
  apigateway.options
    (nth 2 (methods (@GLSInfrastructureStack sampleHost sampleProps))
       {| apigateway.resource := apigateway.root;
          apigateway.httpMethod := [];
          apigateway.integration :=
            {| apigateway.handler := [];
               apigateway.proxy_ := false;
               apigateway.timeout := cdk.Duration.seconds 0 |};
          apigateway.options := None |})
  = Some
      {| apigateway.methodResponses :=
           [ {| apigateway.statusCode := lit "200";
                apigateway.responseParameters :=
                  Some
                    [ (lit "method.response.header.Content-Type", true);
                      (lit "method.response.header.Access-Control-Allow-Origin", true);
                      (lit "method.response.header.Access-Control-Allow-Headers", true);
                      (lit "method.response.header.Access-Control-Allow-Methods", true) ] |};
             {| apigateway.statusCode := lit "400";
                apigateway.responseParameters := None |};
             {| apigateway.statusCode := lit "500";
                apigateway.responseParameters := None |} ] |}.
Proof.
  split_and!.
  - apply nth_In. vm_compute. lia.
  - reflexivity.
  - apply (@named_routes_share_the_response_contract sampleHost sampleProps).
    + apply nth_In. vm_compute. lia.
    + reflexivity.
Defined.

(** C8. The API's CORS policy allows all origins and all methods, allows the
    five request headers [Content-Type], [X-Amz-Date], [Authorization],
    [X-Api-Key] and [X-Amz-Security-Token], and caches a preflight for one
    day. *)
Theorem cors_policy_of_the_api
    `{Host} (props : GLSInfrastructureStackProps) :
  map (fun api => apigateway.defaultCorsPreflightOptions (snd api))
    (restApis (GLSInfrastructureStack props))
  = [ {| apigateway.allowOrigins := Cors_ALL_ORIGINS;
         apigateway.allowMethods := Cors_ALL_METHODS;
         apigateway.allowHeaders :=
           [ lit "Content-Type";
             lit "X-Amz-Date";
             lit "Authorization";
             lit "X-Api-Key";
             lit "X-Amz-Security-Token" ];
         apigateway.maxAge := cdk.Duration.days 1 |} ] /\
  cdk.Duration.toSeconds (cdk.Duration.days 1) = 24 * 60 * 60.
Proof. split; reflexivity. Qed.

(** C4. Whatever the order of the stack's routes in the table, a request
    whose path is the root or one of the three [/api] paths resolves to the
    named route declared for that path and not to the catch-all. *)
Theorem named_routes_are_never_shadowed
    `{Host} (props : GLSInfrastructureStackProps)
    (table : list apigateway.Method) (path : list jsstring) :
  Permutation table (methods (GLSInfrastructureStack props)) ->
  In path namedPaths ->
  exists m : apigateway.Method,
    resolve table path = Some m /\
    In m (methods (GLSInfrastructureStack props)) /\
    is_proxy (apigateway.resource m) = false /\
    segments (apigateway.resource m) = path.
Proof.
  intros Hperm Hpath.
  destruct (named_path_has_one_route props path Hpath) as (m & Hin & Hm & Huniq).
  exists m. split_and!; [| done | |].
  - unfold resolve. rewrite (find_unique _ table m); [done | | done |].
    + by apply (Permutation_in _ (Permutation_sym Hperm)).
    + intros m' Hin'. apply Huniq. by apply (Permutation_in _ Hperm).
  - apply andb_true_iff in Hm as [Hnamed _]. unfold is_named in Hnamed.
    by apply negb_true_iff.
  - apply andb_true_iff in Hm as [_ Hseg]. by apply bool_decide_eq_true in Hseg.
Qed.

Lemma named_routes_are_never_shadowed_witness :
  Permutation
    (rev (methods (@GLSInfrastructureStack sampleHost sampleProps)))
    (methods (@GLSInfrastructureStack sampleHost sampleProps)) /\
  In [lit "api"; lit "GetSignalResponse"] namedPaths /\
  exists m : apigateway.Method,
    resolve (rev (methods (@GLSInfrastructureStack sampleHost sampleProps)))
      [lit "api"; lit "GetSignalResponse"] = Some m /\
    In m (methods (@GLSInfrastructureStack sampleHost sampleProps)) /\
    is_proxy (apigateway.resource m) = false /\
    segments (apigateway.resource m) = [lit "api"; lit "GetSignalResponse"].
Proof.
  assert (Permutation
            (rev (methods (@GLSInfrastructureStack sampleHost sampleProps)))
            (methods (@GLSInfrastructureStack sampleHost sampleProps)))
    as Hperm by (apply Permutation_sym, Permutation_rev).
  assert (In [lit "api"; lit "GetSignalResponse"] namedPaths)
    as Hpath by (simpl; tauto).
  split_and!; [exact Hperm | exact Hpath |].
  exact (@named_routes_are_never_shadowed sampleHost sampleProps _ _
           Hperm Hpath).
Defined.

(** ** The program *)

Lemma default_streamGroupId_valid :
  validateStreamGroupId (lit "sg-000000000") = Return (lit "sg-000000000").
Proof. vm_compute. reflexivity. Qed.

(** C5. When the validator throws, the program completes with that error
    and leaves the app as it was created: no stack, hence no compute unit,
    no grant and no route. *)
Theorem failed_validation_aborts_the_assembly
    `{Host} (process_env : gmap string jsstring) (e : JsError) :
  validateStreamGroupId
    (or_default (process_env !! "STREAM_GROUP_ID"%string) (lit "sg-000000000"))
  = Throw e ->
  main process_env = (new_App, Throw e) /\
  stacks (fst (main process_env)) = [] /\
  computeUnits (fst (main process_env)) = [] /\
  grants (fst (main process_env)) = [] /\
  routes (fst (main process_env)) = [].
Proof.
  intros Hthrow.
  assert (main process_env = (new_App, Throw e)) as ->.
  { unfold main. by rewrite Hthrow. }
  split_and!; reflexivity.
Qed.

Lemma failed_validation_aborts_the_assembly_witness :
  validateStreamGroupId
    (or_default
       ((<["STREAM_GROUP_ID"%string := lit "sg-12345678"]>
           (empty : gmap string jsstring)) !! "STREAM_GROUP_ID"%string)
       (lit "sg-000000000"))
  = Throw (Error (lit "Invalid Stream Group ID format. Must match pattern: At least 9 alphanumeric characters after sg-")) /\
  @main sampleHost
    (<["STREAM_GROUP_ID"%string := lit "sg-12345678"]>
       (empty : gmap string jsstring))
  = (new_App,
     Throw (Error (lit "Invalid Stream Group ID format. Must match pattern: At least 9 alphanumeric characters after sg-"))).
Proof.
  assert (validateStreamGroupId
            (or_default
               ((<["STREAM_GROUP_ID"%string := lit "sg-12345678"]>
                   (empty : gmap string jsstring)) !! "STREAM_GROUP_ID"%string)
               (lit "sg-000000000"))
          = Throw (Error (lit "Invalid Stream Group ID format. Must match pattern: At least 9 alphanumeric characters after sg-")))
    as Hthrow by (vm_compute; reflexivity).
  split; [exact Hthrow |].
  exact (proj1 (@failed_validation_aborts_the_assembly sampleHost _ _ Hthrow)).
Defined.

Section ConstructorOutcomes.

Context `{Host}.

Implicit Types (props : GLSInfrastructureStackProps)
  (throws : LibraryCall -> option JsError).

Lemma stack_functions props :
  functions (GLSInfrastructureStack props)
  = [ (lit "GameLiftStreamsServerLambda",
       {| lambda.runtime := lambda.Runtime.NODEJS_18_X;
          lambda.code :=
            lambda.Code.fromAsset (path_join __dirname (lit "../server"));
          lambda.handler := lit "server.handler";
          lambda.memorySize := 512;
          lambda.timeout := cdk.Duration.seconds 300;
          lambda.environment :=
            [ ("STREAM_GROUP_ID"%string, streamGroupId props);
              ("APPLICATION_ID"%string, applicationId props);
              ("NODE_OPTIONS"%string, lit "--enable-source-maps") ];
          lambda.architecture := lambda.Architecture.ARM_64;
          lambda.tracing := lambda.Tracing.ACTIVE;
          lambda.logRetention := aws_logs.RetentionDays.ONE_MONTH |}) ].
Proof. reflexivity. Qed.

Lemma stack_apiResources props :
  apiResources (GLSInfrastructureStack props)
  = [ apigateway.root;
      apigateway.child apigateway.root (lit "api");
      apigateway.child (apigateway.child apigateway.root (lit "api"))
        (lit "CreateStreamSession");
      apigateway.child (apigateway.child apigateway.root (lit "api"))
        (lit "GetSignalResponse");
      apigateway.child (apigateway.child apigateway.root (lit "api"))
        (lit "DestroyStreamSession");
      apigateway.proxy apigateway.root ].
Proof. reflexivity. Qed.

Lemma stack_outputs props :
  outputs (GLSInfrastructureStack props)
  = [ (lit "Instructions",
       {| value :=
            generateInstructions api_url (streamGroupId props)
              (applicationId props);
          output_description :=
            lit "Instructions for using the GameLiftStreams Share URL" |}) ].
Proof. reflexivity. Qed.


Lemma stack_restApis props :
  restApis (GLSInfrastructureStack props)
  = [ (lit "GameLiftStreamsShareUrlApi",
       {| apigateway.restApiName := lit "GameLiftStreams Share Api";
          apigateway.description :=
            lit "API for the GameLiftStreams Share application";
          apigateway.defaultCorsPreflightOptions :=
            {| apigateway.allowOrigins := Cors_ALL_ORIGINS;
               apigateway.allowMethods := Cors_ALL_METHODS;
               apigateway.allowHeaders :=
                 [ lit "Content-Type";
                   lit "X-Amz-Date";
                   lit "Authorization";
                   lit "X-Api-Key";
                   lit "X-Amz-Security-Token" ];
               apigateway.maxAge := cdk.Duration.days 1 |};
          apigateway.deployOptions :=
            {| apigateway.loggingLevel := apigateway.MethodLoggingLevel.INFO;
               apigateway.dataTraceEnabled := true;
               apigateway.tracingEnabled := true |} |}) ].
Proof. reflexivity. Qed.

(** The constructor either makes all its declarations and returns, or stops
    at the library call that throws, with the declarations made so far. *)
Lemma constructor_outcome props (throws : LibraryCall -> option JsError) :
  constructor props throws emptyStack
  = (Return tt, GLSInfrastructureStack props) \/
  exists e call stack,
    throws call = Some e /\
    constructor props throws emptyStack = (Throw e, stack) /\
    builtFrom stack (GLSInfrastructureStack props).
Proof.
  unfold builtFrom.
  rewrite stack_functions, stack_rolePolicy, stack_restApis,
    stack_apiResources, stack_methods_eq, stack_outputs.
  unfold constructor, bind, new_Function, addToRolePolicy, new_RestApi,
    addResource, Resource_addMethod, addProxy, new_CfnOutput, library,
    emptyStack, route.
  cbn beta iota zeta.
  repeat lazymatch goal with
  | |- context [match throws ?c with _ => _ end] =>
      destruct (throws c) as [e |] eqn:?;
      [ right; exists e, c; eexists;
        split_and!; [eassumption | reflexivity | ..];
        cbn [functions rolePolicy restApis apiResources methods outputs app
             apigateway.root_ apigateway.url apigateway.anyMethod
             apigateway.defaultIntegration];
        repeat apply prefix_cons; apply prefix_nil
      | cbn [functions rolePolicy restApis apiResources methods outputs app
             apigateway.root_ apigateway.url apigateway.anyMethod
             apigateway.defaultIntegration] ]
  end.
  left. reflexivity.
Qed.
Lemma constructor_completes props throws :
  (forall call, throws call = None) ->
  constructor props throws emptyStack
  = (Return tt, GLSInfrastructureStack props).
Proof.
  intros Hnone.
  destruct (constructor_outcome props throws)
    as [Heq | (e & call & stack & Hthrow & _)]; [done |].
  rewrite Hnone in Hthrow. discriminate Hthrow.
Qed.

Lemma constructor_Return props throws stack :
  constructor props throws emptyStack = (Return tt, stack) ->
  stack = GLSInfrastructureStack props.
Proof.
  destruct (constructor_outcome props throws)
    as [-> | (e & call & stack' & _ & -> & _)]; [| discriminate].
  by intros [= <-].
Qed.

End ConstructorOutcomes.

(** C9. With no environment value supplied, and a library that throws in
    none of its calls for a stack left without account and region, the
    program uses [sg-000000000] and [a-000000000]; the former passes the
    validator, the program completes normally, and the app holds one stack
    with exactly one compute unit, one grant and five routes, four of them
    named. *)
Theorem default_environment_assembles
    `{Host} (process_env : gmap string jsstring) :
  process_env !! "STREAM_GROUP_ID"%string = None ->
  process_env !! "APPLICATION_ID"%string = None ->
  process_env !! "CDK_DEFAULT_ACCOUNT"%string = None ->
  process_env !! "CDK_DEFAULT_REGION"%string = None ->
  (forall call,
     library_throws {| account := None; region := None |} call = None) ->
  validateStreamGroupId (lit "sg-000000000") = Return (lit "sg-000000000") /\
  main process_env
  = ({| stacks :=
          [ (lit "GameLiftStreamsGLSInfrastructureStack",
             {| account := None; region := None |},
             GLSInfrastructureStack
               {| streamGroupId := lit "sg-000000000";
                  applicationId := lit "a-000000000";
                  env := {| account := None; region := None |} |}) ] |},
     Return tt) /\
  length (computeUnits (fst (main process_env))) = 1%nat /\
  length (grants (fst (main process_env))) = 1%nat /\
  length (routes (fst (main process_env))) = 5%nat /\
  length (filter is_named (routes (fst (main process_env)))) = 4%nat.
Proof.
  intros Hgroup Happ Haccount Hregion Hlibrary.
  assert (main process_env
          = ({| stacks :=
                  [ (lit "GameLiftStreamsGLSInfrastructureStack",
                     {| account := None; region := None |},
                     GLSInfrastructureStack
                       {| streamGroupId := lit "sg-000000000";
                          applicationId := lit "a-000000000";
                          env := {| account := None; region := None |} |}) ]
             |},
             Return tt)) as Hmain.
  { unfold main. rewrite Hgroup, Happ, Haccount, Hregion. simpl or_default.
    rewrite default_streamGroupId_valid. unfold new_GLSInfrastructureStack.
    by rewrite (constructor_completes _ _ Hlibrary). }
  rewrite Hmain.
  split_and!; [apply default_streamGroupId_valid | done | reflexivity ..].
Qed.

Lemma default_environment_assembles_witness :
  (empty : gmap string jsstring) !! "STREAM_GROUP_ID"%string = None /\
  (empty : gmap string jsstring) !! "APPLICATION_ID"%string = None /\
  (empty : gmap string jsstring) !! "CDK_DEFAULT_ACCOUNT"%string = None /\
  (empty : gmap string jsstring) !! "CDK_DEFAULT_REGION"%string = None /\
  (forall call,
     library_throws (Host := sampleHost)
       {| account := None; region := None |} call = None) /\
  snd (@main sampleHost empty) = Return tt /\
  length (computeUnits (fst (@main sampleHost empty))) = 1%nat /\
  length (grants (fst (@main sampleHost empty))) = 1%nat /\
  length (routes (fst (@main sampleHost empty))) = 5%nat.
Proof.
  assert ((empty : gmap string jsstring) !! "STREAM_GROUP_ID"%string = None)
    as Hgroup by reflexivity.
  assert ((empty : gmap string jsstring) !! "APPLICATION_ID"%string = None)
    as Happ by reflexivity.
  assert ((empty : gmap string jsstring) !! "CDK_DEFAULT_ACCOUNT"%string = None)
    as Haccount by reflexivity.
  assert ((empty : gmap string jsstring) !! "CDK_DEFAULT_REGION"%string = None)
    as Hregion by reflexivity.
  assert (forall call,
            library_throws (Host := sampleHost)
              {| account := None; region := None |} call = None)
    as Hlibrary by (intros call; reflexivity).
  destruct (@default_environment_assembles sampleHost empty Hgroup Happ
              Haccount Hregion Hlibrary)
    as (_ & Hmain & Hunits & Hgrants & Hroutes & _).
  split_and!; [exact Hgroup | exact Happ | exact Haccount | exact Hregion
              | exact Hlibrary | by rewrite Hmain | exact Hunits
              | exact Hgrants | exact Hroutes].
Defined.

(** * Further properties *)

(** ** Identifiers that pass the validator *)

Section ValidatedIdentifiers.

Implicit Types (s g t : jsstring) (c : N).

Lemma alphanumeric_not_special c :
  alphanumeric c = true ->
  isWhiteSpace c = false /\ c <> 42 /\ c <> 47 /\ c <> 58 /\ c <> 63.
Proof.
  unfold alphanumeric.
  rewrite !orb_true_iff, !andb_true_iff, !N.leb_le. intros Hc.
  split; [| lia].
  destruct (isWhiteSpace c) eqn:Hws; [exfalso | done].
  unfold isWhiteSpace in Hws.
  rewrite !orb_true_iff, !andb_true_iff, !N.leb_le, !N.eqb_eq in Hws. lia.
Qed.

Lemma spec_stream_group_id_chars g :
  spec_stream_group_id g ->
  (12 <= length g)%nat /\
  Forall (fun c => alphanumeric c = true \/ c = 45) g.
Proof.
  intros (t & -> & Hlen & Hall). split.
  - rewrite length_app. simpl. lia.
  - apply Forall_app. split.
    + change (lit "sg-") with [115; 103; 45].
      apply Forall_cons; split; [by left |].
      apply Forall_cons; split; [by left |].
      apply Forall_cons; split; [by right | apply Forall_nil; done].
    + eapply Forall_impl; [exact Hall |]. intros c Hc. by left.
Qed.

Lemma spec_stream_group_id_snoc s c :
  spec_stream_group_id (s ++ [c]) -> alphanumeric c = true.
Proof.
  intros (t & Heq & Hlen & Hall).
  destruct (decide (t = [])) as [-> | Hne]; [simpl in Hlen; lia |].
  destruct (exists_last Hne) as (t' & x & ->).
  rewrite app_assoc in Heq. apply app_inj_tail in Heq as [_ ->].
  apply Forall_app in Hall as [_ Hx]. by apply Forall_cons in Hx as [Hx _].
Qed.

End ValidatedIdentifiers.

(** X1. An identifier that the validator returns has at least twelve code
    units, each of them an ASCII letter, a digit or the hyphen; so it holds
    no white space, no line terminator and none of [*], [?], [/] and [:]. *)
Theorem validated_id_has_plain_characters (g : jsstring) :
  validateStreamGroupId g = Return g ->
  (12 <= length g)%nat /\
  Forall (fun c => alphanumeric c = true \/ c = 45) g /\
  Forall (fun c => isWhiteSpace c = false /\
                   c <> 42 /\ c <> 47 /\ c <> 58 /\ c <> 63) g.
Proof.
  intros [_ Hspec]%validateStreamGroupId_Return.
  destruct (spec_stream_group_id_chars g Hspec) as [Hlen Hall].
  split_and!; [done | done |].
  eapply Forall_impl; [exact Hall |].
  intros c [Hc | ->]; [by apply alphanumeric_not_special |].
  split_and!; [reflexivity | lia ..].
Qed.

Lemma validated_id_has_plain_characters_witness :
  validateStreamGroupId (lit "sg-abc123456") = Return (lit "sg-abc123456") /\
  (12 <= length (lit "sg-abc123456"))%nat /\
  Forall (fun c => isWhiteSpace c = false /\
                   c <> 42 /\ c <> 47 /\ c <> 58 /\ c <> 63)
    (lit "sg-abc123456").
Proof.
  assert (validateStreamGroupId (lit "sg-abc123456")
          = Return (lit "sg-abc123456")) as Hok by (vm_compute; reflexivity).
  split; [exact Hok |].
  destruct (validated_id_has_plain_characters _ Hok) as (Hlen & _ & Hall).
  split; [exact Hlen | exact Hall].
Defined.

(** X2. An accepted identifier stays accepted when an ASCII letter or digit
    is appended. *)
Theorem validated_id_extends_by_alphanumeric (s : jsstring) (c : N) :
  validateStreamGroupId s = Return s ->
  alphanumeric c = true ->
  validateStreamGroupId (s ++ [c]) = Return (s ++ [c]).
Proof.
  intros [_ (t & -> & Hlen & Hall)]%validateStreamGroupId_Return Hc.
  apply validateStreamGroupId_Return. split; [done |].
  exists (t ++ [c]). split_and!.
  - by rewrite app_assoc.
  - rewrite length_app. simpl. lia.
  - apply Forall_app. split; [done |].
    apply Forall_cons; split; [done | apply Forall_nil; done].
Qed.

Lemma validated_id_extends_by_alphanumeric_witness :
  validateStreamGroupId (lit "sg-000000000") = Return (lit "sg-000000000") /\
  alphanumeric 90 = true /\
  validateStreamGroupId (lit "sg-000000000" ++ [90])
  = Return (lit "sg-000000000" ++ [90]).
Proof.
  assert (validateStreamGroupId (lit "sg-000000000")
          = Return (lit "sg-000000000")) as Hok by (vm_compute; reflexivity).
  assert (alphanumeric 90 = true) as Hc by reflexivity.
  split_and!; [exact Hok | exact Hc |].
  exact (validated_id_extends_by_alphanumeric _ _ Hok Hc).
Defined.

(** X3. No string that ends in a code unit other than an ASCII letter or
    digit is accepted, whatever comes before it: a trailing line terminator
    or blank is not tolerated. *)
Theorem trailing_non_alphanumeric_is_rejected (s : jsstring) (c : N) :
  alphanumeric c = false ->
  validateStreamGroupId (s ++ [c])
  = Throw (Error (lit "Invalid Stream Group ID format. Must match pattern: At least 9 alphanumeric characters after sg-")).
Proof.
  intros Hc. apply validateStreamGroupId_Throw. split; [done |].
  intros Hspec%spec_stream_group_id_snoc. congruence.
Qed.

Lemma trailing_non_alphanumeric_is_rejected_witness :
  alphanumeric 10 = false /\
  validateStreamGroupId (lit "sg-000000000" ++ nl)
  = Throw (Error (lit "Invalid Stream Group ID format. Must match pattern: At least 9 alphanumeric characters after sg-")).
Proof.
  assert (alphanumeric 10 = false) as Hc by reflexivity.
  split; [exact Hc |].
  exact (trailing_non_alphanumeric_is_rejected (lit "sg-000000000") 10 Hc).
Defined.

(** ** The program on an arbitrary environment *)

Lemma main_cases `{Host} (process_env : gmap string jsstring) :
  let id :=
    or_default (process_env !! "STREAM_GROUP_ID"%string) (lit "sg-000000000") in
  let props :=
    {| streamGroupId := id;
       applicationId :=
         or_default (process_env !! "APPLICATION_ID"%string)
           (lit "a-000000000");
       env :=
         {| account := process_env !! "CDK_DEFAULT_ACCOUNT"%string;
            region := process_env !! "CDK_DEFAULT_REGION"%string |} |} in
  (~ spec_stream_group_id id /\
   main process_env
   = (new_App,
      Throw (Error (lit "Invalid Stream Group ID format. Must match pattern: At least 9 alphanumeric characters after sg-"))))
  \/
  (spec_stream_group_id id /\
   main process_env
   = ({| stacks :=
           [ (lit "GameLiftStreamsGLSInfrastructureStack", env props,
              GLSInfrastructureStack props) ] |},
      Return tt))
  \/
  (spec_stream_group_id id /\
   exists e call stack,
     library_throws (env props) call = Some e /\
     main process_env
     = ({| stacks :=
             [ (lit "GameLiftStreamsGLSInfrastructureStack", env props,
                stack) ] |},
        Throw e) /\
     builtFrom stack (GLSInfrastructureStack props)).
Proof.
  intros id props. unfold main. fold id.
  destruct (validateStreamGroupId id) as [r | e] eqn:Hv.
  - apply validateStreamGroupId_Return in Hv as [-> Hspec].
    fold props. unfold new_GLSInfrastructureStack.
    destruct (constructor_outcome props (library_throws (env props)))
      as [-> | (e & call & stack & Hthrow & -> & Hbuilt)].
    + right. left. by split.
    + right. right. split; [done |]. by exists e, call, stack.
  - apply validateStreamGroupId_Throw in Hv as [-> Hspec]. by left.
Qed.


(** A library that throws in the first call of the constructor leaves the
    stack in the app with nothing declared in it. *)
Lemma strict_library_leaves_an_empty_stack :
  @main strictHost
    (<["CDK_DEFAULT_REGION"%string := lit "xx-nowhere-1"]>
       (empty : gmap string jsstring))
  = ({| stacks :=
          [ (lit "GameLiftStreamsGLSInfrastructureStack",
             {| account := None; region := Some (lit "xx-nowhere-1") |},
             emptyStack) ] |},
     Throw (Error (lit "region-info: unknown region"))).
Proof. vm_compute. reflexivity. Qed.

(** X5. A variable set to the empty string counts as unset: for
    [STREAM_GROUP_ID] and for [APPLICATION_ID], the program does the same
    with the empty value as with the variable removed. *)
Theorem empty_variable_counts_as_unset
    `{Host} (process_env : gmap string jsstring) (k : string) :
  k = "STREAM_GROUP_ID"%string \/ k = "APPLICATION_ID"%string ->
  main (<[k := []]> process_env) = main (delete k process_env).
Proof.
  intros [-> | ->]; unfold main.
  - rewrite lookup_insert_eq, lookup_delete_eq.
    rewrite !lookup_insert_ne, !lookup_delete_ne by discriminate.
    reflexivity.
  - rewrite lookup_insert_eq, lookup_delete_eq.
    rewrite !lookup_insert_ne, !lookup_delete_ne by discriminate.
    reflexivity.
Qed.

Lemma empty_variable_counts_as_unset_witness :
  ("APPLICATION_ID"%string = "STREAM_GROUP_ID"%string \/
   "APPLICATION_ID"%string = "APPLICATION_ID"%string) /\
  @main sampleHost
    (<["APPLICATION_ID"%string := []]>
       (<["APPLICATION_ID"%string := lit "a-1"]>
          (empty : gmap string jsstring)))
  = @main sampleHost
      (delete "APPLICATION_ID"%string
         (<["APPLICATION_ID"%string := lit "a-1"]>
            (empty : gmap string jsstring))).
Proof.
  assert ("APPLICATION_ID"%string = "STREAM_GROUP_ID"%string \/
          "APPLICATION_ID"%string = "APPLICATION_ID"%string)
    as Hk by (right; reflexivity).
  split; [exact Hk |].
  exact (@empty_variable_counts_as_unset sampleHost _ _ Hk).
Defined.

(** X6. When the program completes normally, the app's one grant names the
    wildcard application pattern and the stream-group pattern
    [arn:aws:gameliftstreams:*:*:streamgroup/] followed by the identifier
    read from the environment, and that identifier holds neither [*] nor
    [?]: the pattern names one stream group. *)
Theorem completed_program_grants_one_stream_group
    `{Host} (process_env : gmap string jsstring) (app : App) :
  main process_env = (app, Return tt) ->
  let id :=
    or_default (process_env !! "STREAM_GROUP_ID"%string) (lit "sg-000000000") in
  map iam.resources (grants app)
  = [ [ lit "arn:aws:gameliftstreams:*:*:application/*";
        lit "arn:aws:gameliftstreams:*:*:streamgroup/" ++ id ] ] /\
  ~ In 42 id /\ ~ In 63 id.
Proof.
  intros Hmain id. subst id.
  pose proof (main_cases process_env) as Hcases. cbv zeta in Hcases.
  destruct Hcases
    as [(_ & Heq) | [(Hspec & Heq) | (_ & e & call & stack & _ & Heq & _)]];
    rewrite Heq in Hmain; [discriminate Hmain | | discriminate Hmain].
  injection Hmain as <-. split; [reflexivity |].
  destruct (spec_stream_group_id_chars _ Hspec) as [_ Hall].
  rewrite Forall_forall in Hall.
  split; intros Hin%list_elem_of_In%Hall; destruct Hin as [Hc | Hc];
    first [by vm_compute in Hc | lia].
Qed.

Lemma completed_program_grants_one_stream_group_witness :
  @main sampleHost
    (<["STREAM_GROUP_ID"%string := lit "sg-abc123456"]>
       (empty : gmap string jsstring))
  = (fst (@main sampleHost
            (<["STREAM_GROUP_ID"%string := lit "sg-abc123456"]>
               (empty : gmap string jsstring))),
     Return tt) /\
  map iam.resources
    (grants
       (fst (@main sampleHost
               (<["STREAM_GROUP_ID"%string := lit "sg-abc123456"]>
                  (empty : gmap string jsstring)))))
  = [ [ lit "arn:aws:gameliftstreams:*:*:application/*";
        lit "arn:aws:gameliftstreams:*:*:streamgroup/sg-abc123456" ] ].
Proof.
  assert (@main sampleHost
            (<["STREAM_GROUP_ID"%string := lit "sg-abc123456"]>
               (empty : gmap string jsstring))
          = (fst (@main sampleHost
                    (<["STREAM_GROUP_ID"%string := lit "sg-abc123456"]>
                       (empty : gmap string jsstring))),
             Return tt)) as Hmain by (vm_compute; reflexivity).
  split; [exact Hmain |].
  exact (proj1 (@completed_program_grants_one_stream_group sampleHost _ _
                  Hmain)).
Defined.

(** ** The stack as a whole *)

(** X7. The identifiers reach the same places whatever they are: the
    function's environment holds the stream-group identifier as
    [STREAM_GROUP_ID] and the application identifier as [APPLICATION_ID],
    the grant's stream-group pattern ends in that same stream-group
    identifier, and the one output, [Instructions], holds the share URL built
    from the API's URL and that same application identifier. *)
Theorem stack_uses_identifiers_consistently
    `{Host} (props : GLSInfrastructureStackProps) :
  map (fun f => lambda.environment (snd f))
    (functions (GLSInfrastructureStack props))
  = [ [ ("STREAM_GROUP_ID"%string, streamGroupId props);
        ("APPLICATION_ID"%string, applicationId props);
        ("NODE_OPTIONS"%string, lit "--enable-source-maps") ] ] /\
  map (fun g => iam.resources (snd g))
    (rolePolicy (GLSInfrastructureStack props))
  = [ [ lit "arn:aws:gameliftstreams:*:*:application/*";
        lit "arn:aws:gameliftstreams:*:*:streamgroup/" ++ streamGroupId props ] ] /\
  map fst (outputs (GLSInfrastructureStack props)) = [lit "Instructions"] /\
  Forall
    (fun o =>
       includes (value (snd o))
         (api_url ++ lit "?userId=Player1&applicationId=" ++
          applicationId props ++ lit "&location=us-east-2"))
    (outputs (GLSInfrastructureStack props)).
Proof.
  split_and!; [reflexivity | reflexivity | reflexivity |].
  rewrite stack_outputs.
  apply Forall_cons; split; [| apply Forall_nil; done]. cbn [snd value].
  exists instructionsHead, (drop 19 instructionsTail).
  rewrite generateInstructions_eq.
  rewrite <- (take_drop 19 instructionsTail) at 1.
  change (take 19 instructionsTail) with (lit "&location=us-east-2").
  by rewrite <- !app_assoc.
Qed.

(** X8. The stack refers only to what it declares: every method is behind
    the declared function and sits on a declared resource, every policy
    statement is attached to the declared function, and every resource other
    than the root has its parent among the declared resources. *)
Theorem stack_refers_to_declared_constructs
    `{Host} (props : GLSInfrastructureStackProps) :
  Forall
    (fun m =>
       In (apigateway.handler (apigateway.integration m))
         (map fst (functions (GLSInfrastructureStack props))) /\
       In (apigateway.resource m)
         (apiResources (GLSInfrastructureStack props)))
    (methods (GLSInfrastructureStack props)) /\
  Forall
    (fun g => In (fst g) (map fst (functions (GLSInfrastructureStack props))))
    (rolePolicy (GLSInfrastructureStack props)) /\
  Forall
    (fun r =>
       match parentOf r with
       | Some parent => In parent (apiResources (GLSInfrastructureStack props))
       | None => r = apigateway.root
       end)
    (apiResources (GLSInfrastructureStack props)).
Proof.
  rewrite stack_methods_eq, stack_functions, stack_apiResources,
    stack_rolePolicy.
  split_and!;
    repeat (apply Forall_cons; split; [simpl; auto 10 |]);
    apply Forall_nil; done.
Qed.

(** X9. No route is declared twice: the five routes sit on five different
    resources, the four named ones have four different paths, and no
    resource is declared twice. *)
Theorem stack_routes_are_distinct
    `{Host} (props : GLSInfrastructureStackProps) :
  NoDup (map apigateway.resource (methods (GLSInfrastructureStack props))) /\
  NoDup
    (map (fun m => pathname (segments (apigateway.resource m)))
       (filter is_named (methods (GLSInfrastructureStack props)))) /\
  NoDup (apiResources (GLSInfrastructureStack props)).
Proof.
  rewrite stack_methods_eq, stack_apiResources.
  split_and!; apply (bool_decide_unpack _); vm_compute; exact I.
Qed.


(** ** The instruction text as a whole *)

(** X11. The instruction text is a fixed heading, the URL given, the query
    [?userId=Player1&applicationId=], the application identifier given and a
    fixed ending; both arguments are inserted as they are, white space
    included.  The text has no white space at either end, so trimming it
    again changes nothing, and it is 496 code units longer than the two
    arguments together. *)
Theorem generateInstructions_text (apiUrl g applicationId : jsstring) :
  generateInstructions apiUrl g applicationId
  = instructionsHead ++ apiUrl ++ lit "?userId=Player1&applicationId=" ++
    applicationId ++ instructionsTail /\
  trim (generateInstructions apiUrl g applicationId)
  = generateInstructions apiUrl g applicationId /\
  length (generateInstructions apiUrl g applicationId)
  = (496 + length apiUrl + length applicationId)%nat.
Proof.
  rewrite generateInstructions_eq. split_and!.
  - reflexivity.
  - unfold trim, instructionsHead, instructionsTail.
    rewrite <- !app_assoc.
    rewrite (trimStart_app_nonempty (lit "Instructions")) by discriminate.
    change (trimStart (lit "Instructions")) with (lit "Instructions").
    refine (proj1 _).
    do 19 apply trimEnd_app.
    split; [vm_compute; reflexivity | discriminate].
  - rewrite !length_app.
    change (length instructionsHead) with 266%nat.
    change (length (lit "?userId=Player1&applicationId=")) with 30%nat.
    change (length instructionsTail) with 200%nat.
    lia.
Qed.

(** X12. Two instruction texts that are equal were made, for the same URL,
    from the same application identifier and, for the same application
    identifier, from the same URL. *)
Theorem generateInstructions_tells_arguments_apart
    (apiUrl1 apiUrl2 g1 g2 applicationId1 applicationId2 : jsstring) :
  generateInstructions apiUrl1 g1 applicationId1
  = generateInstructions apiUrl2 g2 applicationId2 ->
  (apiUrl1 = apiUrl2 -> applicationId1 = applicationId2) /\
  (applicationId1 = applicationId2 -> apiUrl1 = apiUrl2).
Proof.
  rewrite !generateInstructions_eq. intros Heq%app_inv_head. split.
  - intros ->. apply app_inv_head in Heq. apply app_inv_head in Heq.
    by apply app_inv_tail in Heq.
  - intros ->. by apply app_inv_tail in Heq.
Qed.

Lemma generateInstructions_tells_arguments_apart_witness :
  generateInstructions (lit "https://x.example/prod") (lit "sg-abc123456")
    (lit "a-1")
  = generateInstructions (lit "https://x.example/prod") (lit "sg-000000000")
      (lit "a-1") /\
  (lit "a-1" = lit "a-1" -> lit "https://x.example/prod"
                            = lit "https://x.example/prod").
Proof.
  assert (generateInstructions (lit "https://x.example/prod")
            (lit "sg-abc123456") (lit "a-1")
          = generateInstructions (lit "https://x.example/prod")
              (lit "sg-000000000") (lit "a-1")) as Heq by reflexivity.
  split; [exact Heq |].
  exact (proj2 (generateInstructions_tells_arguments_apart _ _ _ _ _ _ Heq)).
Defined.
